(** * Scope-bound cached property: [ctx_cached_property] and [under_ctx]

    A shallow embedding of [src/ctx_cached_property.py].  Python objects live
    in an explicit world: instance attribute dictionaries and [dict] objects
    are kept by address, the module-level [ContextVar] is a field of the
    world, and [print] appends to a list of lines.  Python code becomes a
    computation in a state-and-exception monad over that world. *)

From Stdlib Require Import ZArith NArith Strings.String Strings.Ascii Lists.List.
From Stdlib Require Import DecimalString HexadecimalString DecimalN HexadecimalN.
From stdpp Require Import base gmap strings list fin_maps.

Open Scope string_scope.

(** ** Python values, exceptions and the world *)

(** [id(obj)]: in CPython the address of the object.  Two objects that are
    alive at the same time never share it; the address of an object that
    has died can be given to a later one.  A live object is identified with
    its address throughout. *)
Abbreviation addr := N (only parsing).

Inductive value : Type :=
  | VNone
  | VInt (z : Z)
  | VStr (s : string)
  | VRef (a : addr).

Inductive exn : Type :=
  | LookupError
  | KeyError (key : string)
  | AttributeError (name : string)
  | TypeError
  | AssertionError
  | Exception (msg : string).

(** The world a Python statement runs in.
    - [objects]: the [__dict__] of every instance, by [id];
    - [dicts]: every [dict] object, by [id] (a Cache Store is one of them);
    - [cache_holder]: the value of the context variable [cache_holder] in
      the current context, [None] while it has never been set there;
    - [stdout]: the lines printed so far. *)
Record World : Type := mkWorld {
  objects : gmap N (gmap string value);
  dicts : gmap N (gmap string value);
  cache_holder : option N;
  stdout : list string
}.

Definition set_objects (o : gmap N (gmap string value)) (w : World) : World :=
  mkWorld o (dicts w) (cache_holder w) (stdout w).

Definition set_dicts (d : gmap N (gmap string value)) (w : World) : World :=
  mkWorld (objects w) d (cache_holder w) (stdout w).

Definition set_cache_holder (h : option N) (w : World) : World :=
  mkWorld (objects w) (dicts w) h (stdout w).

Definition set_stdout (l : list string) (w : World) : World :=
  mkWorld (objects w) (dicts w) (cache_holder w) l.

(** ** The monad of Python computations *)

Inductive result (A : Type) : Type :=
  | Ok (a : A)
  | Raise (e : exn).
Arguments Ok {A} a.
Arguments Raise {A} e.

Definition M (A : Type) : Type := World → result A * World.

Definition ret {A} (a : A) : M A := λ w, (Ok a, w).

Definition raise {A} (e : exn) : M A := λ w, (Raise e, w).

Definition bind {A B} (m : M A) (k : A → M B) : M B :=
  λ w, match m w with
       | (Ok a, w1) => k a w1
       | (Raise e, w1) => (Raise e, w1)
       end.

Global Instance M_ret : MRet M := @ret.
Global Instance M_bind : MBind M := λ A B k m, bind m k.

(** [try: m  except <catches>: handler  else: orelse]. *)
Definition try_except {A B} (m : M A) (catches : exn → bool)
    (handler : M B) (orelse : A → M B) : M B :=
  λ w, match m w with
       | (Ok a, w1) => orelse a w1
       | (Raise e, w1) => if catches e then handler w1 else (Raise e, w1)
       end.

(** [try: m  finally: fin]: [fin] runs on every exit path of [m]; the
    outcome of [m] is kept unless [fin] itself raises. *)
Definition try_finally {A} (m : M A) (fin : M unit) : M A :=
  λ w, match m w with
       | (r, w1) =>
           match fin w1 with
           | (Ok _, w2) => (r, w2)
           | (Raise e, w2) => (Raise e, w2)
           end
       end.

(** [except LookupError]: it also catches [KeyError], a subclass. *)
Definition is_LookupError (e : exn) : bool :=
  match e with LookupError | KeyError _ => true | _ => false end.

(** ** Built-in operations used by the source *)

(** [print(line)]. *)
Definition print (line : string) : M unit :=
  λ w, (Ok tt, set_stdout (stdout w ++ [line]) w).

(** The dict object at address [c].  A reference held in a variable keeps
    its object alive, so an address read through a reference is always
    allocated; elsewhere the function is totalised with the empty dict. *)
Definition dict_at (c : N) (w : World) : gmap string value :=
  default ∅ (dicts w !! c).

(** [{}]: a new, empty dict object at an address no live object has. *)
Definition new_dict : M N :=
  λ w, let c := fresh (dom (dicts w) ∪ dom (objects w)) in
       (Ok c, set_dicts (<[c := ∅]> (dicts w)) w).

(** [key in d]. *)
Definition dict_contains (c : N) (key : string) : M bool :=
  λ w, (Ok (bool_decide (is_Some (dict_at c w !! key))), w).

(** [d[key] = v]. *)
Definition dict_setitem (c : N) (key : string) (v : value) : M unit :=
  λ w, (Ok tt, set_dicts (<[c := <[key := v]> (dict_at c w)]> (dicts w)) w).

(** [d[key]]. *)
Definition dict_getitem (c : N) (key : string) : M value :=
  λ w, match dict_at c w !! key with
       | Some v => (Ok v, w)
       | None => (Raise (KeyError key), w)
       end.

(** *** [contextvars.ContextVar], for the one variable [cache_holder] *)

(** The [Token] returned by [ContextVar.set]: it records the value the
    variable had before ([None]: [Token.MISSING], the variable was unset). *)
Record Token : Type := mkToken { old_value : option N }.

(** [cache_holder.get()]: the variable has no default, so it raises
    [LookupError] while unset. *)
Definition ContextVar_get : M N :=
  λ w, match cache_holder w with
       | Some c => (Ok c, w)
       | None => (Raise LookupError, w)
       end.

(** [cache_holder.set(v)]. *)
Definition ContextVar_set (v : N) : M Token :=
  λ w, (Ok (mkToken (cache_holder w)), set_cache_holder (Some v) w).

(** [cache_holder.reset(token)]. *)
Definition ContextVar_reset (token : Token) : M unit :=
  λ w, (Ok tt, set_cache_holder (old_value token) w).

(** ** Function objects and their [str] *)

(** A function object made by [def]: its qualified name, its address and
    its code, which takes the instance it is called on.  This is what the
    decorator form [@ctx_cached_property def ...] wraps; callables of other
    kinds, whose [str] is made differently, are not covered. *)
Record function : Type := mkFunction {
  fn_qualname : string;
  fn_id : N;
  fn_code : N → M value
}.

(** [f"{n}"] for a non-negative [int]. *)
Definition str_int (n : N) : string :=
  DecimalString.NilZero.string_of_uint (N.to_uint n).

(** The hexadecimal digits of an address, as [%p] prints them after [0x]. *)
Definition hex_addr (n : N) : string :=
  HexadecimalString.NilZero.string_of_uint (N.to_hex_uint n).

(** [str(f)] of a function object: [<function QUALNAME at 0xADDR>]. *)
Definition str_function (f : function) : string :=
  "<function " ++ fn_qualname f ++ " at 0x" ++ hex_addr (fn_id f) ++ ">".

(** ** The source: [ctx_cached_property] *)

Record ctx_cached_property : Type := mkProperty { _func : function }.

(** What an attribute read evaluates to: the wrapper itself, or a value. *)
Inductive got : Type :=
  | GotSelf (self : ctx_cached_property)
  | GotValue (v : value).

(** [calc_cache_key]: [f"{id(instance)} {self._func}"]. *)
Definition calc_cache_key (self : ctx_cached_property) (instance : N) : string :=
  str_int instance ++ " " ++ str_function (_func self).

(** The line [__get__] prints outside any scope. *)
Definition warning (self : ctx_cached_property) : string :=
  "warning: cache does not work for " ++ str_function (_func self)
    ++ " outside context".

(** [self._func(instance)]. *)
Definition call_func (self : ctx_cached_property) (instance : N) : M value :=
  fn_code (_func self) instance.

(** The part of [__get__] that runs when a Cache Store is active. *)
Definition get_cached (self : ctx_cached_property) (instance : N) (cache : N)
    : M value :=
  let cache_key := calc_cache_key self instance in
  present ← dict_contains cache cache_key;
  (if negb present
   then (v ← call_func self instance; dict_setitem cache cache_key v)
   else ret tt);;
  dict_getitem cache cache_key.

(** The part of [__get__] that runs when no Cache Store is active. *)
Definition get_uncached (self : ctx_cached_property) (instance : N) : M value :=
  print (warning self);;
  call_func self instance.

(** [__get__(self, instance, instance_class=None)]; [instance = None] is
    [Foo.bar], the read on the class. *)
Definition __get__ (self : ctx_cached_property) (instance : option N) : M got :=
  match instance with
  | None => ret (GotSelf self)
  | Some inst =>
      try_except ContextVar_get is_LookupError
        (v ← get_uncached self inst; ret (GotValue v))
        (λ cache, v ← get_cached self inst cache; ret (GotValue v))
  end.

(** ** The source: [under_ctx] *)

(** [with under_ctx(): body].  The generator runs up to its [yield], the
    body runs, and the generator is resumed (or the body's exception is
    thrown into it), which runs the [finally] clause. *)
Definition under_ctx {A} (body : M A) : M A :=
  store ← new_dict;
  token ← ContextVar_set store;
  try_finally body (ContextVar_reset token).

(** ** The source: [main] *)

(** [assert b]. *)
Definition assert (b : bool) : M unit :=
  if b then ret tt else raise AssertionError.

(** [instance.name]. *)
Definition getattr (instance : N) (name : string) : M value :=
  λ w, match objects w !! instance ≫= (.!! name) with
       | Some v => (Ok v, w)
       | None => (Raise (AttributeError name), w)
       end.

(** [instance.name = v]. *)
Definition setattr (instance : N) (name : string) (v : value) : M unit :=
  λ w, (Ok tt,
        set_objects (<[instance := <[name := v]> (default ∅ (objects w !! instance))]>
                       (objects w)) w).

(** [x + 1] on a Python value. *)
Definition add_one (x : value) : M value :=
  match x with
  | VInt z => ret (VInt (z + 1))
  | _ => raise TypeError
  end.

(** A new instance with an empty [__dict__], at an address no live object
    has; it can be the address of an instance that has died. *)
Definition new_object : M N :=
  λ w, let a := fresh (dom (dicts w) ∪ dom (objects w)) in
       (Ok a, set_objects (<[a := ∅]> (objects w)) w).

(** The last reference to an instance goes away ([del foo], or a temporary
    that is dropped): the instance dies and its address is free again. *)
Definition del_object (a : N) : M unit :=
  λ w, (Ok tt, set_objects (delete a (objects w)) w).

(** [Foo()]: a new instance, then [__init__], which sets [self._bar = 0]. *)
Definition Foo : M N :=
  self ← new_object;
  setattr self "_bar" (VInt 0);;
  ret self.

(** The body of [Foo.bar]: [self._bar += 1; return self._bar]. *)
Definition Foo_bar_code (self : N) : M value :=
  x ← getattr self "_bar";
  y ← add_one x;
  setattr self "_bar" y;;
  getattr self "_bar".

(** The function object that [def bar] makes, at address [a]. *)
Definition Foo_bar_function (a : N) : function :=
  mkFunction "main.<locals>.Foo.bar" a Foo_bar_code.

(** The descriptor [Foo.bar], for a function object at address [a]. *)
Definition Foo_bar (a : N) : ctx_cached_property :=
  mkProperty (Foo_bar_function a).

(** [g == z] for an integer literal [z]. *)
Definition got_eq (g : got) (z : Z) : bool :=
  match g with
  | GotValue (VInt z') => bool_decide (z' = z)
  | _ => false
  end.

(** [main()], for the function object of [Foo.bar] at address [a]. *)
Definition main (a : N) : M unit :=
  foo ← Foo;
  under_ctx (
    r ← __get__ (Foo_bar a) (Some foo); assert (got_eq r 1);;
    r ← __get__ (Foo_bar a) (Some foo); assert (got_eq r 1));;
  r ← __get__ (Foo_bar a) (Some foo); assert (got_eq r 2).

(** The world at the start of the flow: no object yet, [cache_holder]
    never set, nothing printed. *)
Definition empty_world : World := mkWorld ∅ ∅ None [].

(** ** Auxiliary definitions for the statements *)

(** Every character of [s] satisfies [P]. *)
Fixpoint str_all (P : ascii → bool) (s : string) : bool :=
  match s with
  | EmptyString => true
  | String c s' => P c && str_all P s'
  end.

(** The characters [str_int] and [hex_addr] are made of. *)
Definition is_dec_digit (c : ascii) : bool :=
  match Ascii.is_nat c with Some _ => true | None => false end.

Definition is_hex_digit (c : ascii) : bool :=
  match c with
  | "a" | "b" | "c" | "d" | "e" | "f" => true
  | _ => is_dec_digit c
  end%char.

(** The address of the dict that [under_ctx] allocates when entered in [w],
    and the world its block starts in: that dict, empty, is installed in
    [cache_holder]. *)
Definition store_of_scope (w : World) : N :=
  fresh (dom (dicts w) ∪ dom (objects w)).

Definition entered (w : World) : World :=
  set_cache_holder (Some (store_of_scope w))
    (set_dicts (<[store_of_scope w := ∅]> (dicts w)) w).

(** The world after [cache[cache_key] = v]. *)
Definition stored (c : N) (key : string) (v : value) (w : World) : World :=
  set_dicts (<[c := <[key := v]> (dict_at c w)]> (dicts w)) w.

(** What a read through [__get__] makes of the outcome of the wrapped
    function. *)
Definition as_got (r : result value) : result got :=
  match r with
  | Ok v => Ok (GotValue v)
  | Raise e => Raise e
  end.

(** [preserves R m]: whatever the outcome, the world [m] ends in is related
    by [R] to the world it started in. *)
Definition preserves {A} (R : relation World) (m : M A) : Prop :=
  ∀ w, R w (m w).2.

(** The computation does not touch the cache machinery at all: the same
    store is installed, and every dict is as it was. *)
Definition same_cache (w w' : World) : Prop :=
  cache_holder w' = cache_holder w ∧ dicts w' = dicts w.

(** The computation works on the installed store only: the same store is
    installed afterwards, and every dict that existed and was not the
    installed one is as it was. *)
Definition other_stores_kept (w w' : World) : Prop :=
  cache_holder w' = cache_holder w ∧
  ∀ c, c ∈ dom (dicts w) → cache_holder w ≠ Some c →
       dicts w' !! c = dicts w !! c.

(** Every dict that existed still exists and has kept each of its entries. *)
Definition stores_grow (d d' : gmap N (gmap string value)) : Prop :=
  ∀ c s, d !! c = Some s → ∃ s', d' !! c = Some s' ∧ s ⊆ s'.

(** The same store is installed afterwards, and dicts have only grown. *)
Definition only_adds (w w' : World) : Prop :=
  cache_holder w' = cache_holder w ∧ stores_grow (dicts w) (dicts w').


(** [Foo.bar] with its function object at a sample address. *)
Definition demo_bar : ctx_cached_property := Foo_bar 140000000.

(** A world with one [Foo] instance at address 0 and no scope. *)
Definition demo_world : World :=
  mkWorld {[ 0%N := {[ "_bar" := VInt 0 ]} ]} ∅ None [].

(** The scenario of [main] without its assertions and with one more read
    after the block: the values of the four reads. *)
Definition scenario (bar : ctx_cached_property) (foo : N) : M (list got) :=
  inside ← under_ctx (
    r1 ← __get__ bar (Some foo);
    r2 ← __get__ bar (Some foo);
    mret [r1; r2]);
  r3 ← __get__ bar (Some foo);
  r4 ← __get__ bar (Some foo);
  mret (inside ++ [r3; r4])%list.

(** [n] reads of the same attribute on the same instance, one after the
    other: the values read. *)
Fixpoint read_times (n : nat) (self : ctx_cached_property) (instance : N)
    : M (list got) :=
  match n with
  | O => mret []
  | S n' =>
      r ← __get__ self (Some instance);
      rs ← read_times n' self instance;
      mret (r :: rs)
  end.

(** Two scopes one after the other, one read in each. *)
Definition two_scopes (bar : ctx_cached_property) (foo : N) : M (list got) :=
  r1 ← under_ctx (__get__ bar (Some foo));
  r2 ← under_ctx (__get__ bar (Some foo));
  mret [r1; r2].

(** A scope inside a scope: a read in the outer scope, a read in the inner
    one, and a read in the outer scope again. *)
Definition nested_scopes (bar : ctx_cached_property) (foo : N) : M (list got) :=
  under_ctx (
    r1 ← __get__ bar (Some foo);
    r2 ← under_ctx (__get__ bar (Some foo));
    r3 ← __get__ bar (Some foo);
    mret [r1; r2; r3]).

(** A world with an installed, empty store and an instance at address 0
    that has no [_bar]: [Foo.bar] raises [AttributeError] on it. *)
Definition broken_world : World := mkWorld {[ 0%N := ∅ ]} {[ 1%N := ∅ ]} (Some 1%N) [].

(** A world inside a scope whose store is still empty, and the same world
    after [Foo.bar] has been called once on the instance. *)
Definition scoped_world : World :=
  mkWorld {[ 0%N := {[ "_bar" := VInt 0 ]} ]} {[ 1%N := ∅ ]} (Some 1%N) [].

Definition scoped_world_after_call : World :=
  mkWorld {[ 0%N := {[ "_bar" := VInt 1 ]} ]} {[ 1%N := ∅ ]} (Some 1%N) [].

(** An outer scope whose store already has an entry. *)
Definition outer_world : World :=
  mkWorld {[ 0%N := {[ "_bar" := VInt 0 ]} ]}
          {[ 1%N := {[ "k" := VInt 7 ]} ]} (Some 1%N) [].

(** A block that reads the attribute and then fails. *)
Definition failing_block : M unit :=
  __get__ demo_bar (Some 0%N);; raise (Exception "boom").

(** The values [z + 1], ..., [z + n], as reads return them. *)
Definition counter_values (z : Z) (n : nat) : list got :=
  map (λ k, GotValue (VInt (z + Z.of_nat k))) (seq 1 n).

(** The world the wrapped function leaves when a read in a scope has to
    call it, and the world itself when the store already has the key. *)
Definition world_after_call (self : ctx_cached_property) (i c : N) (w : World)
    : World :=
  match dict_at c w !! calc_cache_key self i with
  | Some _ => w
  | None => (fn_code (_func self) i w).2
  end.









(** * Properties *)

(** Unfolds the monad and the built-in operations down to world
    transformers. *)
Ltac unfold_py :=
  unfold under_ctx, __get__, get_cached, get_uncached, call_func,
    try_except, try_finally, new_dict, ContextVar_get, ContextVar_set,
    ContextVar_reset, dict_contains, dict_setitem, dict_getitem, print,
    mbind, M_bind, bind, mret, M_ret, ret, raise in *.

(** ** Cache keys are injective *)

Module KeyFacts.

Lemma append_nil (b : string) : "" ++ b = b.
Proof. reflexivity. Qed.

Lemma append_cons (x : ascii) (a b : string) :
  String x a ++ b = String x (a ++ b).
Proof. reflexivity. Qed.

Lemma append_assoc (a b c : string) : (a ++ b) ++ c = a ++ (b ++ c).
Proof.
  induction a as [|x a IH]; [reflexivity |].
  rewrite !append_cons. f_equal. exact IH.
Qed.

Lemma str_all_append P a b :
  str_all P (a ++ b) = str_all P a && str_all P b.
Proof.
  induction a as [|x a IH]; [reflexivity |].
  rewrite append_cons. simpl. by rewrite IH, andb_assoc.
Qed.

(** A separator that does not occur before it splits a string in one way. *)
Lemma split_first_sep (P : ascii → bool) (x : ascii) (p1 p2 r1 r2 : string) :
  P x = false →
  str_all P p1 = true → str_all P p2 = true →
  p1 ++ String x r1 = p2 ++ String x r2 →
  p1 = p2 ∧ r1 = r2.
Proof.
  intros Hx. revert p2.
  induction p1 as [|c p1 IH]; intros [|c' p2];
    rewrite ?append_nil, ?append_cons; simpl; intros H1 H2 E.
  - by inversion E.
  - inversion E; subst c'. rewrite Hx in H2. discriminate.
  - inversion E; subst c. rewrite Hx in H1. discriminate.
  - inversion E; subst c'.
    apply andb_prop in H1 as [_ H1]. apply andb_prop in H2 as [_ H2].
    destruct (IH p2 H1 H2) as [-> ->]; [assumption | done].
Qed.

(** A separator that does not occur after it splits a string in one way. *)
Lemma split_last_sep (P : ascii → bool) (x : ascii) (p1 p2 r1 r2 : string) :
  P x = false →
  str_all P r1 = true → str_all P r2 = true →
  p1 ++ String x r1 = p2 ++ String x r2 →
  p1 = p2 ∧ r1 = r2.
Proof.
  intros Hx H1 H2. revert p2.
  induction p1 as [|c p1 IH]; intros [|c' p2];
    rewrite ?append_nil, ?append_cons; intros E.
  - by inversion E.
  - injection E as <- Er. exfalso.
    rewrite Er, str_all_append in H1. simpl in H1.
    rewrite Hx, andb_false_r in H1. discriminate.
  - injection E as -> Er. exfalso.
    rewrite <- Er, str_all_append in H2. simpl in H2.
    rewrite Hx, andb_false_r in H2. discriminate.
  - inversion E; subst c'.
    destruct (IH p2) as [-> ->]; [assumption | done].
Qed.

Lemma dec_digits (d : Decimal.uint) :
  str_all is_dec_digit (DecimalString.NilEmpty.string_of_uint d) = true.
Proof. induction d; simpl; auto. Qed.

Lemma hex_digits (d : Hexadecimal.uint) :
  str_all is_hex_digit (HexadecimalString.NilEmpty.string_of_uint d) = true.
Proof. induction d; simpl; auto. Qed.

Lemma str_int_digits (n : N) : str_all is_dec_digit (str_int n) = true.
Proof.
  unfold str_int, DecimalString.NilZero.string_of_uint.
  destruct (N.to_uint n) eqn:E; try apply dec_digits. reflexivity.
Qed.

Lemma hex_addr_digits (n : N) : str_all is_hex_digit (hex_addr n) = true.
Proof.
  unfold hex_addr, HexadecimalString.NilZero.string_of_uint.
  destruct (N.to_hex_uint n) eqn:E; try apply hex_digits. reflexivity.
Qed.

Lemma to_uint_nonnil (n : N) : N.to_uint n ≠ Decimal.Nil.
Proof. destruct n; [discriminate | apply DecimalPos.Unsigned.to_uint_nonnil]. Qed.

Lemma to_hex_uint_nonnil (n : N) : N.to_hex_uint n ≠ Hexadecimal.Nil.
Proof. destruct n; [discriminate | apply HexadecimalPos.Unsigned.to_uint_nonnil]. Qed.

Lemma str_int_inj (n m : N) : str_int n = str_int m → n = m.
Proof.
  unfold str_int. intros E.
  apply DecimalN.Unsigned.to_uint_inj.
  pose proof (DecimalString.NilZero.usu _ (to_uint_nonnil n)) as Hn.
  pose proof (DecimalString.NilZero.usu _ (to_uint_nonnil m)) as Hm.
  rewrite E in Hn. congruence.
Qed.

Lemma hex_addr_inj (n m : N) : hex_addr n = hex_addr m → n = m.
Proof.
  unfold hex_addr. intros E.
  apply HexadecimalN.Unsigned.to_uint_inj.
  pose proof (HexadecimalString.NilZero.usu _ (to_hex_uint_nonnil n)) as Hn.
  pose proof (HexadecimalString.NilZero.usu _ (to_hex_uint_nonnil m)) as Hm.
  rewrite E in Hn. congruence.
Qed.

(** The address can be read back off [str(f)]: it is what follows the last
    [x], whatever the qualified name contains. *)
Lemma str_function_inj (f g : function) :
  str_function f = str_function g → fn_id f = fn_id g.
Proof.
  unfold str_function. intros E.
  apply hex_addr_inj.
  assert (Hshape : ∀ q h, "<function " ++ q ++ " at 0x" ++ h ++ ">"
                          = ("<function " ++ q ++ " at 0") ++ String "x" (h ++ ">")).
  { intros q h. rewrite !append_assoc, !append_cons, !append_nil. reflexivity. }
  rewrite !Hshape in E.
  assert (Htail : ∀ n, str_all (λ c, is_hex_digit c || Ascii.eqb c ">")
                         (hex_addr n ++ ">") = true).
  { intros n. rewrite str_all_append. simpl. rewrite andb_true_r.
    pose proof (hex_addr_digits n) as H. revert H.
    generalize (hex_addr n). induction s as [|c s IH]; simpl; [done |].
    intros [Hc Hs]%andb_prop. by rewrite Hc, IH. }
  apply (split_last_sep (λ c, is_hex_digit c || Ascii.eqb c ">") "x"%char)
    in E as [_ E]; [| reflexivity | apply Htail ..].
  change (hex_addr (fn_id f) ++ String ">" "" = hex_addr (fn_id g) ++ String ">" "") in E.
  apply (split_first_sep is_hex_digit ">"%char) in E as [E _];
    [assumption | reflexivity | apply hex_addr_digits ..].
Qed.

(** The key determines the instance and the wrapped function. *)
Lemma calc_cache_key_inj (a b : ctx_cached_property) (i j : N) :
  calc_cache_key a i = calc_cache_key b j →
  i = j ∧ fn_id (_func a) = fn_id (_func b).
Proof.
  unfold calc_cache_key. intros E.
  change (str_int i ++ String " " (str_function (_func a))
          = str_int j ++ String " " (str_function (_func b))) in E.
  apply (split_first_sep is_dec_digit " "%char) in E as [Ei Ef];
    [| reflexivity | apply str_int_digits ..].
  split; [by apply str_int_inj | by apply str_function_inj].
Qed.

End KeyFacts.

Lemma length_append (a b : string) :
  String.length (a ++ b) = (String.length a + String.length b)%nat.
Proof.
  induction a as [|x a IH]; [reflexivity |].
  rewrite KeyFacts.append_cons. simpl. by rewrite IH.
Qed.

Lemma append_inj_r (a b t : string) : a ++ t = b ++ t → a = b.
Proof.
  revert b. induction a as [|x a IH]; intros [|y b];
    rewrite ?KeyFacts.append_nil, ?KeyFacts.append_cons; intros E.
  - reflexivity.
  - apply (f_equal String.length) in E. simpl in E.
    rewrite length_append in E. lia.
  - apply (f_equal String.length) in E. simpl in E.
    rewrite length_append in E. lia.
  - injection E as -> E. f_equal. by apply IH.
Qed.

Lemma str_function_qualname_inj (f g : function) :
  str_function f = str_function g → fn_qualname f = fn_qualname g.
Proof.
  intros E. pose proof (KeyFacts.str_function_inj f g E) as Hid.
  unfold str_function in E. rewrite Hid in E.
  rewrite !KeyFacts.append_cons, !KeyFacts.append_nil in E.
  repeat (injection E as E).
  by apply append_inj_r in E.
Qed.

(** ** Unfolding the source functions *)

Lemma dict_at_stored_eq c key v w : dict_at c (stored c key v w) !! key = Some v.
Proof.
  unfold dict_at, stored; simpl.
  rewrite lookup_insert_eq; simpl. apply lookup_insert_eq.
Qed.

Lemma dict_at_stored_ne c key key' v w :
  key ≠ key' → dict_at c (stored c key v w) !! key' = dict_at c w !! key'.
Proof.
  intros Hne. unfold dict_at at 1, stored; simpl.
  rewrite lookup_insert_eq; simpl. by apply lookup_insert_ne.
Qed.

(** A read on the class. *)
Lemma get_on_class self w : __get__ self None w = (Ok (GotSelf self), w).
Proof. reflexivity. Qed.

(** A read on an instance while no Cache Store is installed. *)
Lemma get_no_scope self i w :
  cache_holder w = None →
  __get__ self (Some i) w =
  (as_got (fn_code (_func self) i (set_stdout (stdout w ++ [warning self]) w)).1,
   (fn_code (_func self) i (set_stdout (stdout w ++ [warning self]) w)).2).
Proof.
  intros Hc. unfold_py. rewrite Hc. simpl.
  destruct (fn_code _ _ _) as [[v|e] w1]; reflexivity.
Qed.

(** A read on an instance while the store at [c] is installed and already
    has the key. *)
Lemma get_hit self i c v w :
  cache_holder w = Some c →
  dict_at c w !! calc_cache_key self i = Some v →
  __get__ self (Some i) w = (Ok (GotValue v), w).
Proof.
  intros Hc Hk. unfold_py. rewrite Hc, Hk. simpl. by rewrite Hk.
Qed.

(** A read on an instance while the store at [c] is installed and has no
    entry for the key: the function is called, and its value is stored. *)
Lemma get_miss self i c w :
  cache_holder w = Some c →
  dict_at c w !! calc_cache_key self i = None →
  __get__ self (Some i) w =
  match fn_code (_func self) i w with
  | (Ok v, w1) => (Ok (GotValue v), stored c (calc_cache_key self i) v w1)
  | (Raise e, w1) => (Raise e, w1)
  end.
Proof.
  intros Hc Hk. unfold_py. rewrite Hc, Hk. simpl.
  destruct (fn_code _ _ _) as [[v|e] w1]; [| reflexivity].
  simpl. fold (stored c (calc_cache_key self i) v w1).
  by rewrite dict_at_stored_eq.
Qed.

(** A [with under_ctx():] block runs its body in [entered w] and then puts
    back the value [cache_holder] had in [w]. *)
Lemma under_ctx_unfold {A} (body : M A) w :
  under_ctx body w =
  ((body (entered w)).1, set_cache_holder (cache_holder w) (body (entered w)).2).
Proof.
  unfold_py. simpl. fold (store_of_scope w). fold (entered w).
  destruct (body (entered w)) as [r w1]. reflexivity.
Qed.

(** Running a sequence whose first part is known. *)
Lemma bind_ok {A B} (m : M A) (k : A → M B) w a w1 :
  m w = (Ok a, w1) → (m ≫= k) w = k a w1.
Proof. intros H. unfold mbind, M_bind, bind. by rewrite H. Qed.

(** Reads that find their value in the store: none of them changes the
    world. *)
Lemma read_times_hit n self i c v w :
  cache_holder w = Some c →
  dict_at c w !! calc_cache_key self i = Some v →
  read_times n self i w = (Ok (replicate n (GotValue v)), w).
Proof.
  intros Hc Hk. induction n as [|n IH]; [reflexivity |].
  simpl. rewrite (bind_ok _ _ _ _ _ (get_hit self i c v w Hc Hk)).
  by rewrite (bind_ok _ _ _ _ _ IH).
Qed.

(** ** What a computation leaves alone *)

Section Preserves.

Context (R : relation World) `{!PreOrder R}.

Lemma preserves_ret {A} (a : A) : preserves R (mret a).
Proof. intros w. simpl. reflexivity. Qed.

Lemma preserves_raise {A} (e : exn) : preserves R (@raise A e).
Proof. intros w. simpl. reflexivity. Qed.

Lemma preserves_bind {A B} (m : M A) (k : A → M B) :
  preserves R m → (∀ a, preserves R (k a)) → preserves R (m ≫= k).
Proof.
  intros Hm Hk w. unfold mbind, M_bind, bind.
  specialize (Hm w). destruct (m w) as [[a|e] w1]; simpl in *; [| done].
  etrans; [exact Hm | apply Hk].
Qed.

Lemma preserves_try_except {A B} (m : M A) catches (h : M B) (k : A → M B) :
  preserves R m → preserves R h → (∀ a, preserves R (k a)) →
  preserves R (try_except m catches h k).
Proof.
  intros Hm Hh Hk w. unfold try_except.
  specialize (Hm w). destruct (m w) as [[a|e] w1]; simpl in *.
  - etrans; [exact Hm | apply Hk].
  - destruct (catches e); [| done]. etrans; [exact Hm | apply Hh].
Qed.

Lemma preserves_try_finally {A} (m : M A) (fin : M unit) :
  preserves R m → preserves R fin → preserves R (try_finally m fin).
Proof.
  intros Hm Hf w. unfold try_finally.
  specialize (Hm w). destruct (m w) as [r w1]; simpl in *.
  specialize (Hf w1). destruct (fin w1) as [[[]|e] w2]; simpl in *;
    by etrans.
Qed.

Lemma preserves_assert (b : bool) : preserves R (assert b).
Proof. destruct b; [apply preserves_ret | apply preserves_raise]. Qed.

Lemma preserves_add_one (x : value) : preserves R (add_one x).
Proof. destruct x; first [apply preserves_ret | apply preserves_raise]. Qed.
End Preserves.

Lemma preserves_weaken {A} (R R' : relation World) (m : M A) :
  (∀ w w', R w w' → R' w w') → preserves R m → preserves R' m.
Proof. intros HR Hm w. apply HR, Hm. Qed.

Global Instance same_cache_preorder : PreOrder same_cache.
Proof.
  split.
  - by intros w.
  - intros w1 w2 w3 [H1 H2] [H3 H4]. split; congruence.
Qed.

Global Instance other_stores_kept_preorder : PreOrder other_stores_kept.
Proof.
  split.
  - by intros w.
  - intros w1 w2 w3 [H1 H2] [H3 H4]. split; [congruence |].
    intros c Hin Hna. rewrite <- (H2 c Hin Hna). apply H4.
    + apply elem_of_dom. rewrite (H2 c Hin Hna). by apply elem_of_dom.
    + by rewrite H1.
Qed.

Global Instance only_adds_preorder : PreOrder only_adds.
Proof.
  split.
  - intros w. split; [done |]. intros c s Hs. by exists s.
  - intros w1 w2 w3 [H1 H2] [H3 H4]. split; [congruence |].
    intros c s Hs.
    destruct (H2 c s Hs) as (s2 & Hs2 & Hsub2).
    destruct (H4 c s2 Hs2) as (s3 & Hs3 & Hsub3).
    exists s3. split; [done | by etrans].
Qed.

Lemma same_cache_other_stores_kept w w' : same_cache w w' → other_stores_kept w w'.
Proof. intros [H1 H2]. split; [done |]. intros c _ _. by rewrite H2. Qed.


(** The operations on instances and on standard output do not touch the
    cache machinery. *)
Lemma same_cache_print line : preserves same_cache (print line).
Proof. by intros w. Qed.

Lemma same_cache_getattr i name : preserves same_cache (getattr i name).
Proof. intros w. unfold getattr. by destruct (_ ≫= _). Qed.

Lemma same_cache_setattr i name v : preserves same_cache (setattr i name v).
Proof. by intros w. Qed.

Lemma same_cache_new_object : preserves same_cache new_object.
Proof. by intros w. Qed.

Lemma same_cache_Foo_bar_code self : preserves same_cache (Foo_bar_code self).
Proof.
  unfold Foo_bar_code.
  repeat first
    [ apply preserves_bind; [apply _ | | intros ?]
    | apply same_cache_getattr | apply same_cache_setattr
    | apply preserves_add_one; apply _ ].
Qed.

Lemma store_of_scope_fresh w : store_of_scope w ∉ dom (dicts w).
Proof.
  unfold store_of_scope.
  pose proof (is_fresh (dom (dicts w) ∪ dom (objects w))) as Hf.
  set_solver.
Qed.

Lemma entered_store_empty w : dict_at (store_of_scope w) (entered w) = ∅.
Proof. unfold dict_at, entered; simpl. by rewrite lookup_insert_eq. Qed.

Lemma entered_other_stores w c :
  c ∈ dom (dicts w) → dicts (entered w) !! c = dicts w !! c.
Proof.
  intros Hin. unfold entered; simpl. apply lookup_insert_ne.
  intros <-. by apply (store_of_scope_fresh w).
Qed.

(** A scope whose body works on the installed store only gives back the
    world with every dict that existed as it was, the outer store included. *)
Lemma under_ctx_keeps_stores {A} (body : M A) w :
  preserves other_stores_kept body →
  cache_holder (under_ctx body w).2 = cache_holder w ∧
  ∀ c, c ∈ dom (dicts w) → dicts (under_ctx body w).2 !! c = dicts w !! c.
Proof.
  intros Hb. rewrite under_ctx_unfold. simpl. split; [done |].
  intros c Hin. destruct (Hb (entered w)) as [_ Hkept].
  rewrite Hkept.
  - by apply entered_other_stores.
  - apply elem_of_dom. rewrite entered_other_stores by done.
    by apply elem_of_dom.
  - simpl. intros [= <-]. by apply (store_of_scope_fresh w).
Qed.

Lemma other_stores_kept_under_ctx {A} (body : M A) :
  preserves other_stores_kept body → preserves other_stores_kept (under_ctx body).
Proof.
  intros Hb w. destruct (under_ctx_keeps_stores body w Hb) as [H1 H2].
  split; [done |]. intros c Hin _. by apply H2.
Qed.

Lemma other_stores_kept_get self instance :
  (∀ i, preserves other_stores_kept (fn_code (_func self) i)) →
  preserves other_stores_kept (__get__ self instance).
Proof.
  intros Hf w. destruct instance as [i|]; [| by rewrite get_on_class].
  destruct (cache_holder w) as [c|] eqn:Hc.
  - destruct (dict_at c w !! calc_cache_key self i) as [v|] eqn:Hk.
    + by rewrite (get_hit self i c v w).
    + rewrite (get_miss self i c w) by done.
      specialize (Hf i w).
      destruct (fn_code (_func self) i w) as [[v|e] w1]; simpl in *; [| done].
      destruct Hf as [H1 H2]. split; [done |].
      intros c' Hin Hna. unfold stored; simpl.
      rewrite lookup_insert_ne by congruence. by apply H2.
  - rewrite get_no_scope by done. simpl.
    destruct (Hf i (set_stdout (stdout w ++ [warning self]) w)) as [H1 H2].
    by split.
Qed.



(** ** The demonstration class of [main] *)

Lemma Foo_bar_code_spec self w fields z :
  objects w !! self = Some fields →
  fields !! "_bar" = Some (VInt z) →
  Foo_bar_code self w =
  (Ok (VInt (z + 1)),
   set_objects (<[self := <["_bar" := VInt (z + 1)]> fields]> (objects w)) w).
Proof.
  intros Ho Hf. unfold Foo_bar_code, getattr, setattr, add_one.
  unfold mbind, M_bind, bind, mret, M_ret, ret. simpl.
  rewrite Ho. simpl. rewrite Hf. simpl.
  rewrite lookup_insert_eq. simpl. rewrite lookup_insert_eq.
  rewrite Ho. reflexivity.
Qed.

(** A read of the counter attribute outside any scope, counter at [z]. *)
Lemma counter_read_no_scope a foo w fields z :
  cache_holder w = None →
  objects w !! foo = Some fields →
  fields !! "_bar" = Some (VInt z) →
  ∃ w', __get__ (Foo_bar a) (Some foo) w = (Ok (GotValue (VInt (z + 1))), w') ∧
        cache_holder w' = None ∧
        objects w' !! foo = Some (<["_bar" := VInt (z + 1)]> fields).
Proof.
  intros Hc Ho Hf. rewrite get_no_scope by done. simpl.
  erewrite Foo_bar_code_spec; [| exact Ho | exact Hf]. simpl.
  eexists; split_and!; [reflexivity | done | apply lookup_insert_eq].
Qed.

(** The first read of the counter attribute in a scope, counter at [z]. *)
Lemma counter_read_miss a foo c w fields z :
  cache_holder w = Some c →
  dict_at c w !! calc_cache_key (Foo_bar a) foo = None →
  objects w !! foo = Some fields →
  fields !! "_bar" = Some (VInt z) →
  ∃ w', __get__ (Foo_bar a) (Some foo) w = (Ok (GotValue (VInt (z + 1))), w') ∧
        cache_holder w' = Some c ∧
        dict_at c w' !! calc_cache_key (Foo_bar a) foo = Some (VInt (z + 1)) ∧
        objects w' !! foo = Some (<["_bar" := VInt (z + 1)]> fields).
Proof.
  intros Hc Hk Ho Hf. rewrite (get_miss _ _ c) by done. simpl.
  erewrite Foo_bar_code_spec; [| exact Ho | exact Hf].
  eexists; split_and!;
    [reflexivity | done | apply dict_at_stored_eq | apply lookup_insert_eq].
Qed.

Example main_runs :
  main 140000000 empty_world =
  (Ok tt,
   mkWorld {[ 0%N := {[ "_bar" := VInt 2 ]} ]}
           {[ 1%N := {[ "0 <function main.<locals>.Foo.bar at 0x8583b00>" := VInt 1 ]} ]}
           None
           ["warning: cache does not work for <function main.<locals>.Foo.bar at 0x8583b00> outside context"]).
Proof. vm_compute. reflexivity. Qed.

Example two_scopes_recompute :
  (two_scopes demo_bar 0 demo_world).1
  = Ok [GotValue (VInt 1); GotValue (VInt 2)].
Proof. vm_compute. reflexivity. Qed.

Example nested_scopes_independent :
  (nested_scopes demo_bar 0 demo_world).1
  = Ok [GotValue (VInt 1); GotValue (VInt 2); GotValue (VInt 1)].
Proof. vm_compute. reflexivity. Qed.

(** Two instances read the same attribute in one scope: each gets the value
    computed from its own counter. *)
Example two_instances_one_scope :
  (under_ctx (
     foo1 ← Foo; foo2 ← Foo;
     a ← __get__ demo_bar (Some foo1);
     b ← __get__ demo_bar (Some foo1);
     c ← __get__ demo_bar (Some foo1);
     d ← __get__ demo_bar (Some foo2);
     mret [a; b; c; d]) empty_world).1
  = Ok [GotValue (VInt 1); GotValue (VInt 1); GotValue (VInt 1); GotValue (VInt 1)].
Proof. vm_compute. reflexivity. Qed.

(** * The claims *)

(** C1.  Whatever the block under [under_ctx] does and however it exits,
    [cache_holder] afterwards holds what it held before entry: the block's
    outcome, a value or an exception, is the outcome of the whole statement,
    and the world is the one the block left with [cache_holder] put back. *)
Theorem under_ctx_restores_on_every_exit {A} (body : M A) (w : World) :
  cache_holder (under_ctx body w).2 = cache_holder w ∧
  (under_ctx body w).1 = (body (entered w)).1 ∧
  (under_ctx body w).2
  = set_cache_holder (cache_holder w) (body (entered w)).2.
Proof. rewrite under_ctx_unfold. simpl. done. Qed.



(** C3.  An instance whose [_bar] is 0, no scope active: the two reads in
    one scope give 1 and 1; after the scope, the next read gives 2 and the
    one after it 3. *)
Theorem counter_scenario_reads_1_1_2_3
    (a foo : N) (w : World) (fields : gmap string value) :
  cache_holder w = None →
  objects w !! foo = Some fields →
  fields !! "_bar" = Some (VInt 0) →
  (scenario (Foo_bar a) foo w).1
  = Ok [GotValue (VInt 1); GotValue (VInt 1); GotValue (VInt 2); GotValue (VInt 3)].
Proof.
  intros Hc Ho Hf. unfold scenario.
  destruct (counter_read_miss a foo (store_of_scope w) (entered w) fields 0)
    as (w2 & E1 & Hc2 & Hk2 & Ho2); [reflexivity | | exact Ho | exact Hf |].
  { by rewrite entered_store_empty. }
  pose proof (get_hit (Foo_bar a) foo _ _ w2 Hc2 Hk2) as E2.
  set (block := (r1 ← __get__ (Foo_bar a) (Some foo);
                 r2 ← __get__ (Foo_bar a) (Some foo); mret [r1; r2]) : M (list got)).
  assert (Eblock : block (entered w)
                   = (Ok [GotValue (VInt 1); GotValue (VInt 1)], w2)).
  { unfold block. rewrite (bind_ok _ _ _ _ _ E1), (bind_ok _ _ _ _ _ E2).
    reflexivity. }
  assert (Escope : under_ctx block w
                   = (Ok [GotValue (VInt 1); GotValue (VInt 1)],
                      set_cache_holder None w2)).
  { rewrite under_ctx_unfold, Eblock, Hc. reflexivity. }
  destruct (counter_read_no_scope a foo (set_cache_holder None w2) _ 1
              eq_refl Ho2 (lookup_insert_eq _ _ _))
    as (w3 & E3 & Hc3 & Ho3).
  destruct (counter_read_no_scope a foo w3 _ 2 Hc3 Ho3 (lookup_insert_eq _ _ _))
    as (w4 & E4 & _).
  rewrite (bind_ok _ _ _ _ _ Escope), (bind_ok _ _ _ _ _ E3),
    (bind_ok _ _ _ _ _ E4).
  reflexivity.
Qed.

Lemma counter_scenario_witness :
  (scenario (Foo_bar 140000000) 0 demo_world).1
  = Ok [GotValue (VInt 1); GotValue (VInt 1); GotValue (VInt 2); GotValue (VInt 3)].
Proof.
  apply (counter_scenario_reads_1_1_2_3 140000000 0 demo_world
           {[ "_bar" := VInt 0 ]}); reflexivity.
Defined.

(** C4.  Every entry to [under_ctx] installs a dict that did not exist
    before and is empty, and leaves the dicts that existed as they were; so
    the first read of any attribute on any instance in the block calls the
    wrapped function, whatever earlier scopes have cached. *)
Theorem under_ctx_installs_fresh_empty_store (w : World) :
  (store_of_scope w ∉ dom (dicts w)) ∧
  cache_holder (entered w) = Some (store_of_scope w) ∧
  dicts (entered w) !! store_of_scope w = Some ∅ ∧
  (∀ A (body : M A), (under_ctx body w).1 = (body (entered w)).1) ∧
  ∀ self i,
    __get__ self (Some i) (entered w) =
    match fn_code (_func self) i (entered w) with
    | (Ok v, w1) =>
        (Ok (GotValue v), stored (store_of_scope w) (calc_cache_key self i) v w1)
    | (Raise e, w1) => (Raise e, w1)
    end.
Proof.
  assert (Hempty : dicts (entered w) !! store_of_scope w = Some ∅).
  { unfold entered; simpl. apply lookup_insert_eq. }
  split_and!.
  - apply store_of_scope_fresh.
  - reflexivity.
  - exact Hempty.
  - intros A body. by rewrite under_ctx_unfold.
  - intros self i. apply get_miss; [reflexivity |].
    unfold dict_at. rewrite Hempty. simpl. apply lookup_empty.
Qed.

(** C5.  A scope entered while the store at [c1] is installed, whose block
    works on the installed store only, gives back a world in which [c1] is
    installed again and holds exactly the entries it held before, whether
    the block returned or raised. *)
Theorem inner_scope_leaves_outer_store {A}
    (body : M A) (w w' : World) (c1 : N) (s1 : gmap string value)
    (r : result A) :
  preserves other_stores_kept body →
  cache_holder w = Some c1 →
  dicts w !! c1 = Some s1 →
  under_ctx body w = (r, w') →
  cache_holder w' = Some c1 ∧ dicts w' !! c1 = Some s1.
Proof.
  intros Hb Hc Hs Hrun.
  destruct (under_ctx_keeps_stores body w Hb) as [H1 H2].
  rewrite Hrun in H1, H2. simpl in *. split; [congruence |].
  rewrite H2; [done |]. apply elem_of_dom. by rewrite Hs.
Qed.

Lemma failing_block_scope_local : preserves other_stores_kept failing_block.
Proof.
  apply preserves_bind; [apply _ | | intros _; apply preserves_raise; apply _].
  apply other_stores_kept_get. intros i.
  eapply preserves_weaken; [apply same_cache_other_stores_kept |].
  apply same_cache_Foo_bar_code.
Qed.

Lemma inner_scope_witness :
  (under_ctx failing_block outer_world).1 = Raise (Exception "boom") ∧
  cache_holder (under_ctx failing_block outer_world).2 = Some 1%N ∧
  dicts (under_ctx failing_block outer_world).2 !! 1%N = Some {[ "k" := VInt 7 ]}.
Proof.
  split; [vm_compute; reflexivity |].
  apply (inner_scope_leaves_outer_store failing_block outer_world
           (under_ctx failing_block outer_world).2 1%N {[ "k" := VInt 7 ]}
           (under_ctx failing_block outer_world).1).
  - exact failing_block_scope_local.
  - reflexivity.
  - reflexivity.
  - apply surjective_pairing.
Defined.

(** C6.  While no store is installed, a read on an instance prints one
    line, [warning: cache does not work for F outside context] with [F] the
    [str] of the wrapped function, calls the function in the world so
    obtained and hands back its outcome; the world afterwards is the one the
    function left, so the read itself stores nothing, and since this holds
    in every such world every such read calls again.  The line names the
    function: another wrapper prints the same line only if it wraps a
    function of the same qualified name at the same address. *)
Theorem get_without_scope_warns_and_computes
    (self : ctx_cached_property) (i : N) (w : World) :
  cache_holder w = None →
  __get__ self (Some i) w =
  (as_got (fn_code (_func self) i
             (set_stdout
                (stdout w ++ ["warning: cache does not work for "
                              ++ str_function (_func self) ++ " outside context"])
                w)).1,
   (fn_code (_func self) i
      (set_stdout
         (stdout w ++ ["warning: cache does not work for "
                       ++ str_function (_func self) ++ " outside context"])
         w)).2) ∧
  ∀ other : ctx_cached_property,
    "warning: cache does not work for "
      ++ str_function (_func other) ++ " outside context"
    = "warning: cache does not work for "
      ++ str_function (_func self) ++ " outside context" →
    fn_qualname (_func other) = fn_qualname (_func self) ∧
    fn_id (_func other) = fn_id (_func self).
Proof.
  intros Hc. split.
  - exact (get_no_scope self i w Hc).
  - intros other E.
    apply (inj (String.append _)) in E. apply append_inj_r in E.
    split; [by apply str_function_qualname_inj |].
    by apply KeyFacts.str_function_inj.
Qed.

Lemma get_without_scope_witness :
  cache_holder demo_world = None ∧
  __get__ demo_bar (Some 0%N) demo_world =
  (as_got (fn_code (_func demo_bar) 0%N
             (set_stdout
                (stdout demo_world
                 ++ ["warning: cache does not work for "
                     ++ str_function (_func demo_bar) ++ " outside context"])
                demo_world)).1,
   (fn_code (_func demo_bar) 0%N
      (set_stdout
         (stdout demo_world
          ++ ["warning: cache does not work for "
              ++ str_function (_func demo_bar) ++ " outside context"])
         demo_world)).2) ∧
  ∀ other : ctx_cached_property,
    "warning: cache does not work for "
      ++ str_function (_func other) ++ " outside context"
    = "warning: cache does not work for "
      ++ str_function (_func demo_bar) ++ " outside context" →
    fn_qualname (_func other) = fn_qualname (_func demo_bar) ∧
    fn_id (_func other) = fn_id (_func demo_bar).
Proof.
  split; [reflexivity |].
  apply (get_without_scope_warns_and_computes demo_bar 0%N demo_world).
  reflexivity.
Defined.

Example get_without_scope_counts :
  (__get__ demo_bar (Some 0%N) demo_world).1 = Ok (GotValue (VInt 1)) ∧
  stdout (__get__ demo_bar (Some 0%N) demo_world).2
  = ["warning: cache does not work for <function main.<locals>.Foo.bar at 0x8583b00> outside context"] ∧
  dicts (__get__ demo_bar (Some 0%N) demo_world).2 = ∅ ∧
  (__get__ demo_bar (Some 0%N) (__get__ demo_bar (Some 0%N) demo_world).2).1
  = Ok (GotValue (VInt 2)).
Proof. vm_compute. done. Qed.






(** C9.  A read on the class ([instance] is [None]) returns the wrapper
    itself and leaves the world as it is, whatever the wrapped function is:
    nothing is called, printed or stored. *)
Theorem get_on_class_returns_wrapper (self : ctx_cached_property) (w : World) :
  __get__ self None w = (Ok (GotSelf self), w).
Proof. unfold __get__. reflexivity. Qed.





Example get_adds_one_entry :
  dicts (__get__ demo_bar (Some 0%N) outer_world).2
  = {[ 1%N := {[ "k" := VInt 7;
                 "0 <function main.<locals>.Foo.bar at 0x8583b00>" := VInt 1 ]} ]}.
Proof. vm_compute. reflexivity. Qed.

(** * Further properties of the code *)

Lemma dict_at_stored_other c c' key v w :
  c ≠ c' → dict_at c' (stored c key v w) = dict_at c' w.
Proof.
  intros Hne. unfold dict_at, stored; simpl. by rewrite lookup_insert_ne.
Qed.

(** X1.  [__get__] raises nothing of its own: the [LookupError] of
    [cache_holder.get()] is caught and [cache[cache_key]] always finds the
    key.  Whenever a read raises, the read was on an instance, and the
    wrapped function raised that exception, leaving that world; the
    function ran in the world of the read, or, outside any scope, in that
    world with the warning line printed. *)
Theorem get_raises_only_what_the_function_raises
    (self : ctx_cached_property) (instance : option N) (w w' : World) (e : exn) :
  __get__ self instance w = (Raise e, w') →
  ∃ i w0, instance = Some i ∧
          fn_code (_func self) i w0 = (Raise e, w') ∧
          (w0 = w ∨ w0 = set_stdout (stdout w ++ [warning self]) w).
Proof.
  intros Hget. destruct instance as [i|]; [| by rewrite get_on_class in Hget].
  destruct (cache_holder w) as [c|] eqn:Hc.
  - destruct (dict_at c w !! calc_cache_key self i) as [v|] eqn:Hk.
    + by rewrite (get_hit self i c v w) in Hget.
    + rewrite (get_miss self i c w) in Hget by done.
      destruct (fn_code (_func self) i w) as [[v|e'] w1] eqn:Hf; [done |].
      injection Hget as -> ->. exists i, w. eauto.
  - rewrite get_no_scope in Hget by done.
    destruct (fn_code (_func self) i _) as [[v|e'] w1] eqn:Hf; [done |].
    simpl in Hget. injection Hget as -> ->. eexists i, _. eauto.
Qed.

Lemma get_raises_witness :
  ∃ i w0, Some 0%N = Some i ∧
          fn_code (_func demo_bar) i w0
          = (Raise (AttributeError "_bar"), broken_world) ∧
          (w0 = broken_world
           ∨ w0 = set_stdout (stdout broken_world ++ [warning demo_bar]) broken_world).
Proof.
  apply (get_raises_only_what_the_function_raises demo_bar (Some 0%N)
           broken_world broken_world (AttributeError "_bar")).
  vm_compute. reflexivity.
Defined.

(** X2.  In a scope, the only thing a read itself changes is the one entry
    of its key in the installed store: the instances, the printed lines and
    [cache_holder] are as the wrapped function left them (as they were, when
    the store had the key), and so is every entry of every dict other than
    that one. *)
Theorem get_in_scope_writes_one_entry
    (self : ctx_cached_property) (i c : N) (w : World) :
  cache_holder w = Some c →
  objects (__get__ self (Some i) w).2 = objects (world_after_call self i c w) ∧
  stdout (__get__ self (Some i) w).2 = stdout (world_after_call self i c w) ∧
  cache_holder (__get__ self (Some i) w).2
  = cache_holder (world_after_call self i c w) ∧
  ∀ c' key', c' ≠ c ∨ key' ≠ calc_cache_key self i →
    dict_at c' (__get__ self (Some i) w).2 !! key'
    = dict_at c' (world_after_call self i c w) !! key'.
Proof.
  intros Hc. unfold world_after_call.
  destruct (dict_at c w !! calc_cache_key self i) as [v|] eqn:Hk.
  - by rewrite (get_hit self i c v w).
  - rewrite (get_miss self i c w) by done.
    destruct (fn_code (_func self) i w) as [[v|e] w1]; simpl; [| done].
    split_and!; try reflexivity.
    intros c' key' [Hc' | Hk'].
    + by rewrite dict_at_stored_other.
    + destruct (decide (c = c')) as [<- | Hne].
      * by rewrite dict_at_stored_ne.
      * by rewrite dict_at_stored_other.
Qed.

Lemma get_in_scope_writes_witness :
  objects (__get__ demo_bar (Some 0%N) outer_world).2
  = objects (world_after_call demo_bar 0 1 outer_world) ∧
  stdout (__get__ demo_bar (Some 0%N) outer_world).2
  = stdout (world_after_call demo_bar 0 1 outer_world) ∧
  cache_holder (__get__ demo_bar (Some 0%N) outer_world).2
  = cache_holder (world_after_call demo_bar 0 1 outer_world) ∧
  ∀ c' key', c' ≠ 1%N ∨ key' ≠ calc_cache_key demo_bar 0 →
    dict_at c' (__get__ demo_bar (Some 0%N) outer_world).2 !! key'
    = dict_at c' (world_after_call demo_bar 0 1 outer_world) !! key'.
Proof.
  apply (get_in_scope_writes_one_entry demo_bar 0%N 1%N outer_world).
  reflexivity.
Defined.

(** X3.  Nothing invalidates a cached value: once the installed store has
    a value under the key, a read that follows any computation which leaves
    the cache machinery alone (an assignment to an attribute of the very
    instance, for one) still returns that value and calls nothing. *)
Theorem cached_value_survives_mutation {A}
    (self : ctx_cached_property) (i c : N) (v : value)
    (m : M A) (a : A) (w w1 : World) :
  cache_holder w = Some c →
  dict_at c w !! calc_cache_key self i = Some v →
  preserves same_cache m →
  m w = (Ok a, w1) →
  (m;; __get__ self (Some i)) w = (Ok (GotValue v), w1).
Proof.
  intros Hc Hk Hm Hrun. rewrite (bind_ok _ _ _ _ _ Hrun).
  destruct (Hm w) as [H1 H2]. rewrite Hrun in H1, H2. simpl in *.
  apply (get_hit self i c); [congruence |].
  unfold dict_at in *. by rewrite H2.
Qed.

(** The world right after the first read of the counter in a scope. *)
Lemma cached_value_survives_witness :
  (setattr 0 "_bar" (VInt 41);; __get__ demo_bar (Some 0%N))
    (stored 1 (calc_cache_key demo_bar 0) (VInt 1) scoped_world_after_call)
  = (Ok (GotValue (VInt 1)),
     (setattr 0 "_bar" (VInt 41)
        (stored 1 (calc_cache_key demo_bar 0) (VInt 1) scoped_world_after_call)).2).
Proof.
  apply (cached_value_survives_mutation demo_bar 0%N 1%N (VInt 1)
           (setattr 0 "_bar" (VInt 41)) tt).
  - reflexivity.
  - vm_compute. reflexivity.
  - apply same_cache_setattr.
  - reflexivity.
Defined.

(** X4.  The cache key is a faithful name of the pair it is derived from:
    two keys are equal exactly when the instances have the same [id] and
    the wrapped function objects have the same qualified name and the same
    address.  The code of the function plays no part. *)
Theorem calc_cache_key_eq_iff (a b : ctx_cached_property) (i j : N) :
  calc_cache_key a i = calc_cache_key b j ↔
  i = j ∧ fn_qualname (_func a) = fn_qualname (_func b)
        ∧ fn_id (_func a) = fn_id (_func b).
Proof.
  split.
  - intros E. destruct (KeyFacts.calc_cache_key_inj a b i j E) as [Hi Hid].
    split_and!; [done | | done].
    unfold calc_cache_key in E. rewrite Hi in E.
    apply (inj (String.append _)) in E.
    rewrite !KeyFacts.append_cons, !KeyFacts.append_nil in E.
    apply str_function_qualname_inj. congruence.
  - intros (-> & Hq & Hid). unfold calc_cache_key, str_function.
    by rewrite Hq, Hid.
Qed.

(** A read of the counter outside any scope, with the world it leaves. *)
Lemma counter_no_scope_eq a foo w fields z :
  cache_holder w = None →
  objects w !! foo = Some fields →
  fields !! "_bar" = Some (VInt z) →
  __get__ (Foo_bar a) (Some foo) w =
  (Ok (GotValue (VInt (z + 1))),
   set_objects (<[foo := <["_bar" := VInt (z + 1)]> fields]> (objects w))
     (set_stdout (stdout w ++ [warning (Foo_bar a)]) w)).
Proof.
  intros Hc Ho Hf. rewrite get_no_scope by done. simpl.
  by erewrite Foo_bar_code_spec; [| exact Ho | exact Hf].
Qed.

(** The first read of the counter in a scope, with the world it leaves. *)
Lemma counter_miss_eq a foo c w fields z :
  cache_holder w = Some c →
  dict_at c w !! calc_cache_key (Foo_bar a) foo = None →
  objects w !! foo = Some fields →
  fields !! "_bar" = Some (VInt z) →
  __get__ (Foo_bar a) (Some foo) w =
  (Ok (GotValue (VInt (z + 1))),
   stored c (calc_cache_key (Foo_bar a) foo) (VInt (z + 1))
     (set_objects (<[foo := <["_bar" := VInt (z + 1)]> fields]> (objects w)) w)).
Proof.
  intros Hc Hk Ho Hf. rewrite (get_miss _ _ c) by done. simpl.
  by erewrite Foo_bar_code_spec; [| exact Ho | exact Hf].
Qed.

Lemma counter_values_S z n :
  counter_values z (S n) = GotValue (VInt (z + 1)) :: counter_values (z + 1) n.
Proof.
  unfold counter_values. simpl. f_equal.
  rewrite <- seq_shift, map_map. apply map_ext. intros k.
  do 2 f_equal. lia.
Qed.

(** X5.  In a scope, however often the counter attribute is read, [bar]
    runs once: with the counter at [z] and the store without the key, every
    one of [n + 1] reads returns [z + 1], the counter ends at [z + 1], the
    store has gained the one entry, and nothing is printed. *)
Theorem counter_reads_in_scope
    (a foo c : N) (n : nat) (w : World) (fields : gmap string value) (z : Z) :
  cache_holder w = Some c →
  dict_at c w !! calc_cache_key (Foo_bar a) foo = None →
  objects w !! foo = Some fields →
  fields !! "_bar" = Some (VInt z) →
  read_times (S n) (Foo_bar a) foo w =
  (Ok (replicate (S n) (GotValue (VInt (z + 1)))),
   stored c (calc_cache_key (Foo_bar a) foo) (VInt (z + 1))
     (set_objects (<[foo := <["_bar" := VInt (z + 1)]> fields]> (objects w)) w)).
Proof.
  intros Hc Hk Ho Hf. simpl.
  rewrite (bind_ok _ _ _ _ _ (counter_miss_eq a foo c w fields z Hc Hk Ho Hf)).
  rewrite (bind_ok _ _ _ _ _
             (read_times_hit n (Foo_bar a) foo c (VInt (z + 1))
                (stored c (calc_cache_key (Foo_bar a) foo) (VInt (z + 1))
                   (set_objects
                      (<[foo := <["_bar" := VInt (z + 1)]> fields]> (objects w)) w))
                Hc (dict_at_stored_eq _ _ _ _))).
  reflexivity.
Qed.

Lemma counter_reads_in_scope_witness :
  read_times 3 (Foo_bar 140000000) 0 scoped_world =
  (Ok (replicate 3 (GotValue (VInt (0 + 1)))),
   stored 1 (calc_cache_key (Foo_bar 140000000) 0) (VInt (0 + 1))
     (set_objects (<[0%N := <["_bar" := VInt (0 + 1)]> {[ "_bar" := VInt 0 ]}]>
                     (objects scoped_world)) scoped_world)).
Proof.
  apply (counter_reads_in_scope 140000000 0 1 2 scoped_world
           {[ "_bar" := VInt 0 ]} 0); vm_compute; reflexivity.
Defined.

(** X6.  Outside any scope every read runs [bar]: with the counter at [z],
    [n] reads return [z + 1], ..., [z + n], the counter ends at [z + n], one
    warning line is printed per read, and no dict is created or changed. *)
Theorem counter_reads_outside_scope
    (a foo : N) (n : nat) (w : World) (fields : gmap string value) (z : Z) :
  cache_holder w = None →
  objects w !! foo = Some fields →
  fields !! "_bar" = Some (VInt z) →
  ∃ w', read_times n (Foo_bar a) foo w = (Ok (counter_values z n), w') ∧
        objects w' !! foo ≫= (.!! "_bar") = Some (VInt (z + Z.of_nat n)) ∧
        stdout w' = (stdout w ++ replicate n (warning (Foo_bar a)))%list ∧
        cache_holder w' = None ∧
        dicts w' = dicts w.
Proof.
  revert w fields z. induction n as [|n IH]; intros w fields z Hc Ho Hf.
  - exists w. split_and!; try done.
    + rewrite Ho. simpl. rewrite Hf. do 2 f_equal. lia.
    + simpl. by rewrite app_nil_r.
  - pose proof (counter_no_scope_eq a foo w fields z Hc Ho Hf) as E1.
    set (w1 := set_objects _ _) in E1.
    destruct (IH w1 (<["_bar" := VInt (z + 1)]> fields) (z + 1)%Z)
      as (w' & En & Ho' & Hout & Hc' & Hd').
    { exact Hc. }
    { apply lookup_insert_eq. }
    { apply lookup_insert_eq. }
    exists w'. split_and!.
    + simpl. rewrite (bind_ok _ _ _ _ _ E1), (bind_ok _ _ _ _ _ En).
      by rewrite counter_values_S.
    + rewrite Ho'. do 2 f_equal. lia.
    + rewrite Hout. simpl. by rewrite <- app_assoc.
    + exact Hc'.
    + by rewrite Hd'.
Qed.

Lemma counter_reads_outside_scope_witness :
  ∃ w', read_times 3 (Foo_bar 140000000) 0 demo_world
        = (Ok (counter_values 0 3), w') ∧
        objects w' !! 0%N ≫= (.!! "_bar") = Some (VInt (0 + Z.of_nat 3)) ∧
        stdout w'
        = (stdout demo_world ++ replicate 3 (warning (Foo_bar 140000000)))%list ∧
        cache_holder w' = None ∧
        dicts w' = dicts demo_world.
Proof.
  apply (counter_reads_outside_scope 140000000 0 3 demo_world
           {[ "_bar" := VInt 0 ]} 0); reflexivity.
Defined.

(** [Foo()] in full: the new instance lives at an address nothing lives at,
    and its only attribute is [_bar = 0]. *)
Lemma Foo_eq w :
  Foo w =
  (Ok (fresh (dom (dicts w) ∪ dom (objects w))),
   set_objects (<[fresh (dom (dicts w) ∪ dom (objects w))
                  := {[ "_bar" := VInt 0 ]}]> (objects w)) w).
Proof.
  unfold Foo, new_object, setattr.
  unfold mbind, M_bind, bind, mret, M_ret, ret. simpl.
  rewrite lookup_insert_eq. simpl.
  rewrite insert_insert_eq, insert_empty. reflexivity.
Qed.

Lemma fresh_not_object w : fresh (dom (dicts w) ∪ dom (objects w)) ∉ dom (objects w).
Proof.
  pose proof (is_fresh (dom (dicts w) ∪ dom (objects w))) as Hf. set_solver.
Qed.

Lemma fresh_not_dict w : fresh (dom (dicts w) ∪ dom (objects w)) ∉ dom (dicts w).
Proof.
  pose proof (is_fresh (dom (dicts w) ∪ dom (objects w))) as Hf. set_solver.
Qed.

(** The two reads of the block of [main], for an instance whose counter is
    at 0, in the world the block starts in. *)
Lemma main_block_eq a foo w fields :
  objects w !! foo = Some fields →
  fields !! "_bar" = Some (VInt 0) →
  under_ctx (
    r ← __get__ (Foo_bar a) (Some foo); assert (got_eq r 1);;
    r ← __get__ (Foo_bar a) (Some foo); assert (got_eq r 1)) w =
  (Ok tt,
   set_cache_holder (cache_holder w)
     (stored (store_of_scope w) (calc_cache_key (Foo_bar a) foo) (VInt 1)
        (set_objects (<[foo := <["_bar" := VInt 1]> fields]> (objects w))
           (entered w)))).
Proof.
  intros Ho Hf. rewrite under_ctx_unfold.
  pose proof (counter_miss_eq a foo (store_of_scope w) (entered w) fields 0
                eq_refl) as E1.
  rewrite entered_store_empty in E1. specialize (E1 (lookup_empty _) Ho Hf).
  change (0 + 1)%Z with 1%Z in E1.
  set (w2 := stored _ _ _ _) in *.
  assert (E2 : __get__ (Foo_bar a) (Some foo) w2 = (Ok (GotValue (VInt 1)), w2)).
  { apply (get_hit _ _ (store_of_scope w)); [reflexivity |].
    apply dict_at_stored_eq. }
  rewrite (bind_ok _ _ _ _ _ E1). cbv beta.
  rewrite (bind_ok _ _ _ tt _
             (eq_refl : assert (got_eq (GotValue (VInt 1)) 1) w2 = (Ok tt, w2))).
  rewrite (bind_ok _ _ _ _ _ E2). reflexivity.
Qed.

(** X7.  Called while no scope is active, [main] passes its three
    assertions and returns: afterwards no scope is active, exactly one
    warning line has been printed (by the read after the block), and every
    instance that existed is as it was. *)
Theorem main_succeeds_outside_scope (a : N) (w : World) :
  cache_holder w = None →
  ∃ w', main a w = (Ok tt, w') ∧
        cache_holder w' = None ∧
        stdout w' = (stdout w ++ [warning (Foo_bar a)])%list ∧
        ∀ o, o ∈ dom (objects w) → objects w' !! o = objects w !! o.
Proof.
  intros Hc. unfold main.
  rewrite (bind_ok _ _ _ _ _ (Foo_eq w)).
  set (foo := fresh _). set (w0 := set_objects _ w).
  assert (Ho0 : objects w0 !! foo = Some {[ "_bar" := VInt 0 ]})
    by apply lookup_insert_eq.
  rewrite (bind_ok _ _ _ _ _
             (main_block_eq a foo w0 _ Ho0 (lookup_singleton_eq _ _))).
  set (w3 := set_cache_holder _ _).
  pose proof (counter_no_scope_eq a foo w3 (<["_bar" := VInt 1]> {[ "_bar" := VInt 0 ]}) 1)
    as E3.
  rewrite (bind_ok _ _ _ _ _ (E3 Hc (lookup_insert_eq _ _ _) (lookup_insert_eq _ _ _))).
  eexists. split_and!; [reflexivity | exact Hc | reflexivity |].
  intros o Hin. simpl.
  assert (o ≠ foo) by (intros ->; by apply (fresh_not_object w)).
  by rewrite !lookup_insert_ne.
Qed.

Lemma main_succeeds_witness :
  ∃ w', main 140000000 empty_world = (Ok tt, w') ∧
        cache_holder w' = None ∧
        stdout w'
        = (stdout empty_world ++ [warning (Foo_bar 140000000)])%list ∧
        ∀ o, o ∈ dom (objects empty_world) →
             objects w' !! o = objects empty_world !! o.
Proof.
  apply (main_succeeds_outside_scope 140000000 empty_world). reflexivity.
Defined.

(** X8.  Called inside a scope whose store has no entry for the new
    instance, [main] passes its assertions too, and prints nothing: the
    read after its own block is served by the enclosing scope, whose store
    gains the entry with the value 2 and is still the installed one. *)
Theorem main_inside_scope
    (a c : N) (w : World) (s : gmap string value) :
  cache_holder w = Some c →
  dicts w !! c = Some s →
  s !! calc_cache_key (Foo_bar a) (fresh (dom (dicts w) ∪ dom (objects w))) = None →
  ∃ w', main a w = (Ok tt, w') ∧
        cache_holder w' = Some c ∧
        stdout w' = stdout w ∧
        dicts w' !! c
        = Some (<[calc_cache_key (Foo_bar a) (fresh (dom (dicts w) ∪ dom (objects w)))
                  := VInt 2]> s).
Proof.
  intros Hc Hs Hk. unfold main.
  rewrite (bind_ok _ _ _ _ _ (Foo_eq w)).
  set (foo := fresh _) in *. set (w0 := set_objects _ w).
  assert (Ho0 : objects w0 !! foo = Some {[ "_bar" := VInt 0 ]})
    by apply lookup_insert_eq.
  rewrite (bind_ok _ _ _ _ _
             (main_block_eq a foo w0 _ Ho0 (lookup_singleton_eq _ _))).
  set (w3 := set_cache_holder _ _).
  assert (Hne : store_of_scope w0 ≠ c).
  { intros E. apply (store_of_scope_fresh w0). rewrite E.
    apply elem_of_dom. simpl. by rewrite Hs. }
  assert (Hd3 : dicts w3 !! c = Some s).
  { unfold w3, stored, entered; simpl. by rewrite !lookup_insert_ne. }
  assert (Hk3 : dict_at c w3 !! calc_cache_key (Foo_bar a) foo = None).
  { unfold dict_at. by rewrite Hd3. }
  pose proof (counter_miss_eq a foo c w3
                (<["_bar" := VInt 1]> {[ "_bar" := VInt 0 ]}) 1 Hc Hk3
                (lookup_insert_eq _ _ _) (lookup_insert_eq _ _ _)) as E3.
  rewrite (bind_ok _ _ _ _ _ E3).
  eexists. split_and!; [reflexivity | exact Hc | reflexivity |].
  unfold stored; simpl. rewrite lookup_insert_eq.
  do 2 f_equal. unfold dict_at. cbn [dicts set_objects]. by rewrite Hd3.
Qed.

Lemma main_inside_scope_witness :
  ∃ w', main 140000000 outer_world = (Ok tt, w') ∧
        cache_holder w' = Some 1%N ∧
        stdout w' = stdout outer_world ∧
        dicts w' !! 1%N
        = Some (<[calc_cache_key (Foo_bar 140000000)
                    (fresh (dom (dicts outer_world) ∪ dom (objects outer_world)))
                  := VInt 2]> {[ "k" := VInt 7 ]}).
Proof.
  apply (main_inside_scope 140000000 1 outer_world {[ "k" := VInt 7 ]});
    vm_compute; reflexivity.
Defined.

(** X9.  A scope entered while the enclosing scope already has the value
    cached: the read in the inner scope calls the wrapped function all the
    same (its outcome is the function's outcome in the world the inner
    block starts in), and once the inner scope is left, a read returns the
    value of the enclosing scope again.  This for a wrapped function that
    touches stores only through the installed one. *)
Theorem nested_scope_recomputes_and_outer_value_survives
    (self : ctx_cached_property) (i c : N) (v : value) (w : World) :
  cache_holder w = Some c →
  dict_at c w !! calc_cache_key self i = Some v →
  (∀ j, preserves other_stores_kept (fn_code (_func self) j)) →
  (under_ctx (__get__ self (Some i)) w).1
  = as_got (fn_code (_func self) i (entered w)).1 ∧
  __get__ self (Some i) (under_ctx (__get__ self (Some i)) w).2
  = (Ok (GotValue v), (under_ctx (__get__ self (Some i)) w).2).
Proof.
  intros Hc Hk Hf. split.
  - rewrite under_ctx_unfold. cbn [fst].
    rewrite (get_miss self i (store_of_scope w) (entered w)); [| reflexivity |].
    + by destruct (fn_code (_func self) i (entered w)) as [[v'|e] w1].
    + rewrite entered_store_empty. apply lookup_empty.
  - destruct (under_ctx_keeps_stores (__get__ self (Some i)) w
                (other_stores_kept_get self (Some i) Hf)) as [H1 H2].
    apply (get_hit self i c); [congruence |].
    unfold dict_at in *. rewrite H2; [done |].
    apply elem_of_dom. destruct (dicts w !! c); [done | discriminate].
Qed.

Lemma nested_scope_witness :
  (under_ctx (__get__ demo_bar (Some 0%N))
     (stored 1 (calc_cache_key demo_bar 0) (VInt 1) scoped_world_after_call)).1
  = as_got (fn_code (_func demo_bar) 0%N
              (entered
                 (stored 1 (calc_cache_key demo_bar 0) (VInt 1)
                    scoped_world_after_call))).1 ∧
  __get__ demo_bar (Some 0%N)
    (under_ctx (__get__ demo_bar (Some 0%N))
       (stored 1 (calc_cache_key demo_bar 0) (VInt 1) scoped_world_after_call)).2
  = (Ok (GotValue (VInt 1)),
     (under_ctx (__get__ demo_bar (Some 0%N))
        (stored 1 (calc_cache_key demo_bar 0) (VInt 1) scoped_world_after_call)).2).
Proof.
  apply (nested_scope_recomputes_and_outer_value_survives demo_bar 0%N 1%N
           (VInt 1)
           (stored 1 (calc_cache_key demo_bar 0) (VInt 1) scoped_world_after_call)).
  - reflexivity.
  - vm_compute. reflexivity.
  - intros j. eapply preserves_weaken; [apply same_cache_other_stores_kept |].
    apply same_cache_Foo_bar_code.
Defined.

(** X10.  A new [Foo] instance is made at an address that no instance
    alive at that moment has: it is another object than every live
    instance, which all stay as they are, its counter is 0, and for every
    attribute its cache key differs from theirs.  Instances that have died
    do not count: see [id_reused_after_death]. *)
Theorem new_instance_differs_from_live_ones
    (foo1 foo2 : N) (w1 w2 : World) :
  foo1 ∈ dom (objects w1) →
  Foo w1 = (Ok foo2, w2) →
  foo1 ≠ foo2 ∧
  objects w2 !! foo1 = objects w1 !! foo1 ∧
  objects w2 !! foo2 = Some {[ "_bar" := VInt 0 ]} ∧
  ∀ self, calc_cache_key self foo1 ≠ calc_cache_key self foo2.
Proof.
  intros Hlive Hnew. rewrite Foo_eq in Hnew. injection Hnew as <- <-.
  assert (Hne : foo1 ≠ fresh (dom (dicts w1) ∪ dom (objects w1))).
  { intros E. apply (fresh_not_object w1). by rewrite <- E. }
  split_and!.
  - exact Hne.
  - simpl. by rewrite lookup_insert_ne.
  - simpl. apply lookup_insert_eq.
  - intros self [E _]%KeyFacts.calc_cache_key_inj. done.
Qed.

Lemma new_instance_witness :
  0%N ≠ 1%N ∧
  objects (Foo demo_world).2 !! 0%N = objects demo_world !! 0%N ∧
  objects (Foo demo_world).2 !! 1%N = Some {[ "_bar" := VInt 0 ]} ∧
  ∀ self, calc_cache_key self 0 ≠ calc_cache_key self 1.
Proof.
  apply (new_instance_differs_from_live_ones 0 1 demo_world (Foo demo_world).2).
  - vm_compute. reflexivity.
  - vm_compute. reflexivity.
Defined.

(** Once an instance has died, its address is free: the next instance can
    be made there, and then has the keys of the dead one. *)
Example id_reused_after_death :
  ((foo1 ← Foo; del_object foo1;; foo2 ← Foo; mret (foo1, foo2)) demo_world).1
  = Ok (1%N, 1%N).
Proof. vm_compute. reflexivity. Qed.

(** The code of [bar] on an instance that has no [_bar]. *)
Lemma Foo_bar_code_no_counter self w :
  objects w !! self ≫= (.!! "_bar") = None →
  Foo_bar_code self w = (Raise (AttributeError "_bar"), w).
Proof.
  intros Hn. unfold Foo_bar_code, getattr.
  unfold mbind at 1, M_bind, bind. by rewrite Hn.
Qed.

(** X11.  On an instance that has no [_bar] (or that does not exist) the
    counter attribute raises [AttributeError].  Outside any scope the
    warning line has been printed by then; in a scope whose store has no
    entry for the key the world is left exactly as it was, so nothing is
    cached. *)
Theorem counter_without_attribute_raises (a foo : N) (w : World) :
  objects w !! foo ≫= (.!! "_bar") = None →
  (cache_holder w = None →
   __get__ (Foo_bar a) (Some foo) w
   = (Raise (AttributeError "_bar"),
      set_stdout (stdout w ++ [warning (Foo_bar a)]) w)) ∧
  (∀ c, cache_holder w = Some c →
        dict_at c w !! calc_cache_key (Foo_bar a) foo = None →
        __get__ (Foo_bar a) (Some foo) w = (Raise (AttributeError "_bar"), w)).
Proof.
  intros Hn. split.
  - intros Hc. rewrite get_no_scope by done. simpl.
    by rewrite Foo_bar_code_no_counter.
  - intros c Hc Hk. rewrite (get_miss _ _ c) by done. simpl.
    by rewrite Foo_bar_code_no_counter.
Qed.

Lemma counter_without_attribute_witness :
  (cache_holder broken_world = None →
   __get__ (Foo_bar 140000000) (Some 0%N) broken_world
   = (Raise (AttributeError "_bar"),
      set_stdout (stdout broken_world ++ [warning (Foo_bar 140000000)])
        broken_world)) ∧
  (∀ c, cache_holder broken_world = Some c →
        dict_at c broken_world !! calc_cache_key (Foo_bar 140000000) 0 = None →
        __get__ (Foo_bar 140000000) (Some 0%N) broken_world
        = (Raise (AttributeError "_bar"), broken_world)).
Proof.
  apply (counter_without_attribute_raises 140000000 0 broken_world).
  reflexivity.
Defined.
